(** * DCA: a daily fixed-notional buy of SPY through a brokerage client

    Shallow embedding of [src/main.py] and the properties of its
    specification.  The program is sequential glue around three calls of
    an external brokerage client (clock, account, order submission), a
    logger and a polling scheduler.  The embedding keeps that shape:

    - the brokerage client is an oracle giving, for each call, either a
      value or a raised error;
    - every observable action (client call, log record, scheduler call,
      sleep) is an event of a trace, and a function of the program is a
      computation producing a trace and either a value or a raised
      exception;
    - Python floats are binary64 values, taken from the Standard
      Library's [spec_float]. *)

From Stdlib Require Import ZArith List String Ascii Bool Lia.
From Stdlib Require Import SpecFloat DecimalString.
From stdpp Require Import base option list strings gmap.

Import ListNotations.
Local Open Scope string_scope.
Local Open Scope Z_scope.

(* ===================================================================== *)
(** * The Python runtime the program relies on *)
(* ===================================================================== *)

Module Py.

(** ** Exceptions

    [except Exception] handles the instances of class [Exception] and
    lets the system-exiting exceptions through; [exit(n)] raises
    [SystemExit(n)].  An instance of [Exception] is represented by
    [str(e)], the only thing the program does with it. *)
Record Exception := mkException { str : string }.

Inductive BaseException :=
| Exception_ (e : Exception)
| SystemExit (code : Z).

(** ** Strings *)

(** [c.lower()] on one character.  Only the ASCII letters are mapped;
    a byte of a multi-byte character is left as it is. *)
Definition lower_ascii (c : ascii) : ascii :=
  let n := N_of_ascii c in
  if ((65 <=? n) && (n <=? 90))%N then ascii_of_N (n + 32) else c.

Fixpoint lower (s : string) : string :=
  match s with
  | EmptyString => EmptyString
  | String c s' => String (lower_ascii c) (lower s')
  end.

(** Truth value of an [Optional[str]]: [None] and the empty string are
    false. *)
Definition truthy (v : option string) : bool :=
  match v with
  | None => false
  | Some EmptyString => false
  | Some (String _ _) => true
  end.

(** ** Floats *)

Definition prec : Z := 53.
Definition emax : Z := 1024.

(** The binary64 value nearest to [m * 2^e]. *)
Definition float_of (m e : Z) : spec_float := binary_normalize prec emax m e false.

(** [float(x)] of a value that is already a float. *)
Definition float (x : spec_float) : spec_float := x.

(** [a < b] on floats: false as soon as one side is a NaN. *)
Definition lt (a b : spec_float) : bool := SFltb a b.

(** [a >= b] on floats. *)
Definition ge (a b : spec_float) : bool := SFleb b a.

(** Decimal digits of a natural number, without padding. *)
Definition digits (n : Z) : string := NilZero.string_of_uint (N.to_uint (Z.to_N n)).

(** Two decimal digits, padded with a zero ([%02d]). *)
Definition digits2 (n : Z) : string :=
  if n <? 10 then "0" ++ digits n else digits n.

(** Four decimal digits, padded with zeros ([%04d]). *)
Definition digits4 (n : Z) : string :=
  if n <? 10 then "000" ++ digits n
  else if n <? 100 then "00" ++ digits n
  else if n <? 1000 then "0" ++ digits n
  else digits n.

(** [n / d] rounded to the nearest integer, ties to even ([0 <= n],
    [0 < d]). *)
Definition round_half_even (n d : Z) : Z :=
  let q := n / d in
  let r := n mod d in
  match (2 * r ?= d) with
  | Lt => q
  | Gt => q + 1
  | Eq => if Z.even q then q else q + 1
  end.

(** The magnitude [m * 2^e] in hundredths, correctly rounded. *)
Definition hundredths (m : positive) (e : Z) : Z :=
  if 0 <=? e then Z.pos m * 100 * 2 ^ e
  else round_half_even (Z.pos m * 100) (2 ^ (- e)).

(** [f"{x:.2f}"]: fixed notation with two decimals, the exact value
    rounded half to even, the sign kept on a negative zero. *)
Definition format_2f (x : spec_float) : string :=
  match x with
  | S754_nan => "nan"
  | S754_infinity s => if s then "-inf" else "inf"
  | S754_zero s => if s then "-0.00" else "0.00"
  | S754_finite s m e =>
      let h := hundredths m e in
      (if s then "-" else "") ++ digits (h / 100) ++ "." ++ digits2 (h mod 100)
  end.

(** ** Dates *)

Record datetime := mkDatetime {
  year : Z; month : Z; day : Z; hour : Z; minute : Z; second : Z }.

(** [d.strftime('%Y-%m-%d %H:%M:%S')], for a date whose fields are in
    their ranges. *)
Definition strftime (d : datetime) : string :=
  digits4 (year d) ++ "-" ++ digits2 (month d) ++ "-" ++ digits2 (day d) ++ " "
  ++ digits2 (hour d) ++ ":" ++ digits2 (minute d) ++ ":" ++ digits2 (second d).

End Py.

(* ===================================================================== *)
(** * The brokerage library, as the program consumes it *)
(* ===================================================================== *)

Module Alpaca.

(** The records below are declared by the brokerage library, not by
    this repository; their fields are the ones the program reads or
    writes, with the types the specification's data model gives them. *)

(** Modelled from the spec: the market clock,
    [{ is_open: bool, next_open: timestamp }]. *)
Record Clock := mkClock {
  is_open : bool;
  next_open : Py.datetime }.

(** Modelled from the spec: the account record is declared by the
    brokerage library, not by this repository.  The spec gives it as
    [{ id: string, cash: decimal, portfolio_value: decimal }]; the two
    decimal fields are held as the binary64 value [float(...)] gives
    for them, the only way the program reads them. *)
Record TradeAccount := mkAccount {
  id : string;
  cash : spec_float;
  portfolio_value : spec_float }.

(** Modelled from the spec: the order request,
    [{ symbol, notional_amount, side: enum{buy,sell}, time_in_force: enum }],
    with the values the brokerage library has for the two enumerations. *)
Inductive OrderSide := BUY | SELL.
Inductive TimeInForce := DAY | GTC | OPG | CLS | IOC | FOK.

Record MarketOrderRequest := mkMarketOrderRequest {
  symbol : string;
  notional : spec_float;
  side : OrderSide;
  time_in_force : TimeInForce }.

(** Modelled from the spec: the confirmation of a submitted order,
    [{ id: string }]. *)
Record Order := mkOrder { order_id : string }.

(** What a call of the client does: it gives a value or raises an
    error (an instance of [Exception]: network, authentication,
    validation, ...). *)
Inductive reply (A : Type) :=
| Gives (a : A)
| Fails (e : Py.Exception).
Arguments Gives {A} a.
Arguments Fails {A} e.

(** The client during one cycle of the strategy.  Each operation is
    called at most once in a cycle, so its behaviour there is one
    reply. *)
Record TradingClient := mkTradingClient {
  get_clock : reply Clock;
  get_account : reply TradeAccount;
  submit_order : MarketOrderRequest -> reply Order }.

End Alpaca.

Import Alpaca.

(* ===================================================================== *)
(** * Observable actions and computations *)
(* ===================================================================== *)

Inductive level := INFO | WARNING | ERROR.

(** The callables of this program that are handed to the scheduler. *)
Inductive callable := run_dca_strategy_fn.

(** A job of the [schedule] library: [every(interval).<unit>.at(t).do(f)]. *)
Inductive time_unit := seconds | minutes | hours | days | weeks.

Record Job := mkJob {
  interval : Z;
  unit_ : time_unit;
  at_time : string;
  job_func : callable }.

Inductive event :=
| EvNewClient (key secret : string) (paper : bool)
| EvGetClock
| EvGetAccount
| EvSubmitOrder (req : MarketOrderRequest)
| EvLog (lvl : level) (msg : string)
| EvSchedule (j : Job)
| EvRunPending
| EvSleep (secs : Z).

Inductive result (A : Type) :=
| Ok (a : A)
| Raised (e : Py.BaseException).
Arguments Ok {A} a.
Arguments Raised {A} e.

(** A computation: the events it performs, in order, and how it ends. *)
Definition io (A : Type) : Type := (list event * result A)%type.

Definition ret {A} (a : A) : io A := ([], Ok a).

Definition bind {A B} (m : io A) (k : A -> io B) : io B :=
  match m with
  | (t, Ok a) => let '(t', r) := k a in ((t ++ t')%list, r)
  | (t, Raised e) => (t, Raised e)
  end.

Notation "'let*' x ':=' m 'in' k" := (bind m (fun x => k))
  (at level 10, x name, m at level 100, k at level 200).

Definition raise {A} (e : Py.BaseException) : io A := ([], Raised e).

(** [try: body  except Exception as e: handler e]. *)
Definition try_except {A} (body : io A) (handler : Py.Exception -> io A) : io A :=
  match body with
  | (t, Ok a) => (t, Ok a)
  | (t, Raised (Py.Exception_ e)) => let '(t', r) := handler e in ((t ++ t')%list, r)
  | (t, Raised (Py.SystemExit c)) => (t, Raised (Py.SystemExit c))
  end.

(** A call of the brokerage client: the call is an event, and a failure
    is raised as an exception. *)
Definition call {A} (ev : event) (r : reply A) : io A :=
  match r with
  | Gives a => ([ev], Ok a)
  | Fails e => ([ev], Raised (Py.Exception_ e))
  end.

Definition logger_info (msg : string) : io unit := ([EvLog INFO msg], Ok tt).
Definition logger_warning (msg : string) : io unit := ([EvLog WARNING msg], Ok tt).
Definition logger_error (msg : string) : io unit := ([EvLog ERROR msg], Ok tt).

(** [exit(code)]. *)
Definition exit {A} (code : Z) : io A := raise (Py.SystemExit code).

Definition trace {A} (m : io A) : list event := fst m.
Definition outcome {A} (m : io A) : result A := snd m.

(* ===================================================================== *)
(** * The program: [src/main.py] *)
(* ===================================================================== *)

(** ** Configuration *)

Definition SYMBOL : string := "SPY".

(** [DAILY_INVESTMENT = 100.0]. *)
Definition DAILY_INVESTMENT : spec_float := Py.float_of 100 0.

(** [str(DAILY_INVESTMENT)], as the f-string of [place_order] prints it. *)
Definition DAILY_INVESTMENT_str : string := "100.0".

(** ** One cycle of the strategy *)

Section Cycle.

Variable trading_client : TradingClient.

Definition check_market_hours : io bool :=
  let* clock := call EvGetClock (get_clock trading_client) in
  if negb (is_open clock) then
    let next_open := Py.strftime (next_open clock) in
    let* _ := logger_info ("Market is closed. Next market open: " ++ next_open) in
    ret false
  else
    ret true.

Definition get_account_info : io spec_float :=
  let* account := call EvGetAccount (get_account trading_client) in
  let* _ := logger_info ("Account ID: " ++ id account) in
  let* _ := logger_info ("Cash Balance: $" ++ Py.format_2f (Py.float (cash account))) in
  let* _ := logger_info ("Portfolio Value: $"
                         ++ Py.format_2f (Py.float (portfolio_value account))) in
  ret (Py.float (cash account)).

Definition place_order : io unit :=
  let* open := check_market_hours in
  if negb open then
    let* _ := logger_info "Skipping order as market is closed." in
    ret tt
  else
    let* cash_balance := get_account_info in
    if Py.lt cash_balance DAILY_INVESTMENT then
      let* _ := logger_warning ("Insufficient funds. Available cash: $"
                                ++ Py.format_2f cash_balance) in
      ret tt
    else
      let market_order_data :=
        {| symbol := SYMBOL;
           notional := DAILY_INVESTMENT;
           side := BUY;
           time_in_force := DAY |} in
      try_except
        (let* order := call (EvSubmitOrder market_order_data)
                            (submit_order trading_client market_order_data) in
         let* _ := logger_info ("Order placed successfully - Order ID: "
                                ++ order_id order) in
         logger_info ("Buying $" ++ DAILY_INVESTMENT_str ++ " of " ++ SYMBOL))
        (fun e => logger_error ("Error placing order: " ++ Py.str e)).

Definition run_dca_strategy : io unit :=
  let* _ := logger_info "Running DCA strategy..." in
  try_except
    (let* _ := place_order in
     logger_info "DCA execution completed")
    (fun e => logger_error ("Error executing DCA strategy: " ++ Py.str e)).

End Cycle.

(** ** The scheduler loop *)

(** How the process stands after some polls: still looping, or brought
    down by an exception nobody handled. *)
Inductive status :=
| Running
| Terminated (e : Py.BaseException).

(** [schedule.every().day.at(t).do(f)]: one more job in the scheduler. *)
Definition every_day_at_do (jobs : list Job) (t : string) (f : callable) : io (list Job) :=
  let job := {| interval := 1; unit_ := days; at_time := t; job_func := f |} in
  ([EvSchedule job], Ok (jobs ++ [job])%list).

(** [time.sleep(secs)]. *)
Definition sleep (secs : Z) : io unit := ([EvSleep secs], Ok tt).

Section Scheduler.

(** The brokerage client as it answers during each run of the
    strategy: [world 0] at the start-up run, [world (S i)] during the
    poll number [i]. *)
Variable world : nat -> TradingClient.

(** The decision of the [schedule] library, at poll number [i], that a
    job is due (its wall-clock time has come). *)
Variable should_run : nat -> Job -> bool.

Definition run_callable (tc : TradingClient) (f : callable) : io unit :=
  match f with
  | run_dca_strategy_fn => run_dca_strategy tc
  end.

Fixpoint run_jobs (tc : TradingClient) (js : list Job) : io unit :=
  match js with
  | [] => ret tt
  | j :: js' =>
      let* _ := run_callable tc (job_func j) in
      run_jobs tc js'
  end.

(** [schedule.run_pending()]: runs the jobs that are due. *)
Definition run_pending (jobs : list Job) (i : nat) : io unit :=
  let* _ := ([EvRunPending], Ok tt) in
  run_jobs (world (S i)) (List.filter (should_run i) jobs).

(** [while True: schedule.run_pending(); time.sleep(60)], cut after
    [fuel] iterations; [i] numbers the polls. *)
Fixpoint poll_loop (jobs : list Job) (i fuel : nat) : list event * status :=
  match fuel with
  | O => ([], Running)
  | S fuel' =>
      match (let* _ := run_pending jobs i in sleep 60) with
      | (t, Ok _) =>
          let '(t', s) := poll_loop jobs (S i) fuel' in ((t ++ t')%list, s)
      | (t, Raised e) => (t, Terminated e)
      end
  end.

(** [schedule_dca()], with the jobs the scheduler holds when it is
    called. *)
Definition schedule_dca (jobs0 : list Job) (fuel : nat) : list event * status :=
  match (let* jobs := every_day_at_do jobs0 "09:35" run_dca_strategy_fn in
         let* _ := logger_info "DCA strategy scheduled to run daily at 9:35 AM" in
         let* _ := run_dca_strategy (world 0) in
         ret jobs) with
  | (t, Ok jobs) =>
      let '(t', s) := poll_loop jobs 0 fuel in ((t ++ t')%list, s)
  | (t, Raised e) => (t, Terminated e)
  end.

End Scheduler.

(** ** Start-up: the module's top level *)

(** [os.getenv(k)] and [os.getenv(k, d)], on the environment as
    [load_dotenv()] leaves it. *)
Definition getenv (env : gmap string string) (k : string) : option string := env !! k.

Definition getenv_default (env : gmap string string) (k d : string) : string :=
  match env !! k with
  | Some v => v
  | None => d
  end.

Section Startup.

Variable env : gmap string string.

Definition api_key : option string := getenv env "ALPACA_API_KEY".
Definition api_secret : option string := getenv env "ALPACA_API_SECRET".
Definition is_paper : bool :=
  String.eqb (Py.lower (getenv_default env "IS_PAPER" "true")) "true".

(** Lines 31 to 40: the credentials check and the construction of the
    client. *)
Definition init : io unit :=
  if negb (Py.truthy api_key) || negb (Py.truthy api_secret) then
    let* _ := logger_error "API keys not found. Please check your .env file." in
    exit 1
  else
    match api_key, api_secret with
    | Some k, Some s => ([EvNewClient k s is_paper], Ok tt)
    | _, _ => ret tt
    end.

(** The whole script, run as [__main__]. *)
Definition main (world : nat -> TradingClient) (should_run : nat -> Job -> bool)
    (fuel : nat) : list event * status :=
  match (let* _ := init in
         logger_info "Starting DCA strategy for S&P 500 ($100 daily investment)") with
  | (t, Ok _) =>
      let '(t', s) := schedule_dca world should_run [] fuel in ((t ++ t')%list, s)
  | (t, Raised e) => (t, Terminated e)
  end.

End Startup.

(** The exit status of a process that has ended: the code of
    [SystemExit], 1 for any other unhandled exception. *)
Definition exit_status (s : status) : option Z :=
  match s with
  | Running => None
  | Terminated (Py.SystemExit c) => Some c
  | Terminated (Py.Exception_ _) => Some 1
  end.

(** ** Reading a trace *)

(** The orders submitted, in order. *)
Fixpoint submissions (t : list event) : list MarketOrderRequest :=
  match t with
  | [] => []
  | EvSubmitOrder req :: t' => req :: submissions t'
  | _ :: t' => submissions t'
  end.

(** The log records of a given level, in order. *)
Fixpoint logged (lvl : level) (t : list event) : list string :=
  match t with
  | [] => []
  | EvLog l msg :: t' =>
      match l, lvl with
      | INFO, INFO | WARNING, WARNING | ERROR, ERROR => msg :: logged lvl t'
      | _, _ => logged lvl t'
      end
  | _ :: t' => logged lvl t'
  end.

Definition is_get_account (e : event) : bool :=
  match e with EvGetAccount => true | _ => false end.

Definition is_new_client (e : event) : bool :=
  match e with EvNewClient _ _ _ => true | _ => false end.

Definition is_run_start (e : event) : bool :=
  match e with
  | EvLog INFO msg => String.eqb msg "Running DCA strategy..."
  | _ => false
  end.

(** ** What the specification expects to see *)

(** The order of the specification: 100.0 dollars of SPY, bought for the
    day. *)
Definition the_order : MarketOrderRequest :=
  {| symbol := "SPY";
     notional := Py.float_of 100 0;
     side := BUY;
     time_in_force := DAY |}.

(** The three records the account gate logs. *)
Definition account_log (account : TradeAccount) : list event :=
  [EvLog INFO ("Account ID: " ++ id account);
   EvLog INFO ("Cash Balance: $" ++ Py.format_2f (cash account));
   EvLog INFO ("Portfolio Value: $" ++ Py.format_2f (portfolio_value account))].

(** The single trigger: every day at 09:35, the strategy. *)
Definition daily_job : Job :=
  {| interval := 1; unit_ := days; at_time := "09:35"; job_func := run_dca_strategy_fn |}.

(** A string occurs inside another. *)
Definition contains (sub s : string) : Prop :=
  exists pre post, s = pre ++ sub ++ post.

(** Two characters are the same up to the case of an ASCII letter. *)
Definition is_upper (c : ascii) : bool :=
  ((65 <=? N_of_ascii c) && (N_of_ascii c <=? 90))%N.

Definition ascii_ci_eqb (a b : ascii) : bool :=
  Ascii.eqb a b
  || (is_upper a && (N_of_ascii b =? N_of_ascii a + 32)%N)
  || (is_upper b && (N_of_ascii a =? N_of_ascii b + 32)%N).

(** Case-insensitive match of two strings, character by character. *)
Fixpoint ci_eqb (s1 s2 : string) : bool :=
  match s1, s2 with
  | EmptyString, EmptyString => true
  | String a s1', String b s2' => ascii_ci_eqb a b && ci_eqb s1' s2'
  | _, _ => false
  end.

(** What one poll of the loop performs when [daily_job] is the only job:
    the check of the pending triggers, a run of the strategy if the
    trigger is due, and the sleep of 60 seconds. *)
Definition poll_events (world : nat -> TradingClient) (should_run : nat -> Job -> bool)
    (i : nat) : list event :=
  ([EvRunPending]
   ++ (if should_run i daily_job then trace (run_dca_strategy (world (S i))) else [])
   ++ [EvSleep 60])%list.

(** The number of runs of the strategy a trace holds: each run starts
    with the same record. *)
Definition runs (t : list event) : nat := length (List.filter is_run_start t).

(** The number of polls, among the first [n], at which the trigger is
    due. *)
Definition due_polls (should_run : nat -> Job -> bool) (n : nat) : nat :=
  length (List.filter (fun i => should_run i daily_job) (seq 0 n)).

(** ** Sample inputs *)

Definition sample_next_open : Py.datetime := Py.mkDatetime 2024 1 2 9 30 0.
Definition clock_open : Clock := mkClock true sample_next_open.
Definition clock_closed : Clock := mkClock false sample_next_open.

(** Accounts holding 500.00, 50.00 and exactly 100.00 dollars. *)
Definition account_500 : TradeAccount :=
  mkAccount "acc-1" (Py.float_of 500 0) (Py.float_of 1234567 (-3)).
Definition account_50 : TradeAccount :=
  mkAccount "acc-1" (Py.float_of 50 0) (Py.float_of 50 0).
Definition account_100 : TradeAccount :=
  mkAccount "acc-1" (Py.float_of 100 0) (Py.float_of 100 0).

Definition accepts : MarketOrderRequest -> reply Order :=
  fun _ => Gives (mkOrder "ord-9").
Definition rejects : MarketOrderRequest -> reply Order :=
  fun _ => Fails (Py.mkException "insufficient buying power").

Definition tc_funded : TradingClient := mkTradingClient (Gives clock_open) (Gives account_500) accepts.
Definition tc_closed : TradingClient := mkTradingClient (Gives clock_closed) (Gives account_500) accepts.
Definition tc_poor : TradingClient := mkTradingClient (Gives clock_open) (Gives account_50) accepts.
Definition tc_exact : TradingClient := mkTradingClient (Gives clock_open) (Gives account_100) accepts.
Definition tc_rejected : TradingClient := mkTradingClient (Gives clock_open) (Gives account_500) rejects.
Definition tc_clock_down : TradingClient :=
  mkTradingClient (Fails (Py.mkException "connection refused")) (Gives account_500) accepts.
Definition tc_account_down : TradingClient :=
  mkTradingClient (Gives clock_open) (Fails (Py.mkException "forbidden")) accepts.

(** Environments: no secret, both credentials, and a mode written in
    mixed case. *)
Definition env_no_secret : gmap string string :=
  {[ "ALPACA_API_KEY" := "key" ]}.
Definition env_default_mode : gmap string string :=
  {[ "ALPACA_API_KEY" := "key"; "ALPACA_API_SECRET" := "secret" ]}.
Definition env_mixed_case : gmap string string :=
  {[ "ALPACA_API_KEY" := "key"; "ALPACA_API_SECRET" := "secret"; "IS_PAPER" := "TrUe" ]}.
Definition env_live : gmap string string :=
  {[ "ALPACA_API_KEY" := "key"; "ALPACA_API_SECRET" := "secret"; "IS_PAPER" := "yes" ]}.

(** ** Further readings of a trace *)

Definition is_get_clock (e : event) : bool :=
  match e with EvGetClock => true | _ => false end.

Definition is_run_pending (e : event) : bool :=
  match e with EvRunPending => true | _ => false end.

(** The seconds slept, all sleeps added. *)
Fixpoint slept (t : list event) : Z :=
  match t with
  | [] => 0
  | EvSleep secs :: t' => secs + slept t'
  | _ :: t' => slept t'
  end.

(** The two preconditions of a submission, as the client answers them:
    the clock query gives an open market, the account query gives an
    account, and the balance is not below the daily amount. *)
Definition passes_gates (tc : TradingClient) : bool :=
  match get_clock tc with
  | Gives clock =>
      is_open clock
      && match get_account tc with
         | Gives account => negb (Py.lt (cash account) DAILY_INVESTMENT)
         | Fails _ => false
         end
  | Fails _ => false
  end.

(** The error a cycle meets, if any, with the prefix of the handler that
    logs it: the clock query, then the account query if the market is
    open, then the submission if the gates are passed. *)
Definition cycle_error (tc : TradingClient) : option string :=
  match get_clock tc with
  | Fails e => Some ("Error executing DCA strategy: " ++ Py.str e)
  | Gives clock =>
      if is_open clock then
        match get_account tc with
        | Fails e => Some ("Error executing DCA strategy: " ++ Py.str e)
        | Gives account =>
            if Py.lt (cash account) DAILY_INVESTMENT then None
            else match submit_order tc the_order with
                 | Fails e => Some ("Error placing order: " ++ Py.str e)
                 | Gives _ => None
                 end
        end
      else None
  end.

(** The record that announces a purchase. *)
Definition is_purchase_record (e : event) : bool :=
  match e with
  | EvLog INFO msg => String.eqb msg "Buying $100.0 of SPY"
  | _ => false
  end.

(** The broker accepts the order of the program. *)
Definition accepts_order (tc : TradingClient) : bool :=
  match submit_order tc the_order with
  | Gives _ => true
  | Fails _ => false
  end.

(** More sample inputs: a balance that is not a number, and an
    environment whose key is set but empty. *)
Definition account_nan : TradeAccount :=
  mkAccount "acc-1" S754_nan (Py.float_of 50 0).
Definition tc_nan : TradingClient :=
  mkTradingClient (Gives clock_open) (Gives account_nan) accepts.
Definition env_empty_key : gmap string string :=
  {[ "ALPACA_API_KEY" := ""; "ALPACA_API_SECRET" := "secret" ]}.

(* ===================================================================== *)
(** * Properties *)
(* ===================================================================== *)

(** ** The runtime model on a few values *)

Example lower_TrUe : Py.lower "TrUe" = "true".
Proof. reflexivity. Qed.

Example format_50 : Py.format_2f (Py.float_of 50 0) = "50.00".
Proof. vm_compute. reflexivity. Qed.

Example format_half_even : Py.format_2f (Py.float_of 1 (-3)) = "0.12".
Proof. vm_compute. reflexivity. Qed.

Example format_9999 : Py.format_2f (Py.float_of 3999 (-2)) = "999.75".
Proof. vm_compute. reflexivity. Qed.

Example strftime_ex :
  Py.strftime (Py.mkDatetime 2024 1 2 9 30 0) = "2024-01-02 09:30:00".
Proof. vm_compute. reflexivity. Qed.

(** ** Float comparison *)

Lemma SFcompare_swap (a b : spec_float) :
  SFcompare b a = option_map CompOpp (SFcompare a b).
Proof.
  destruct a as [sa|sa| |sa ma ea], b as [sb|sb| |sb mb eb]; simpl;
    try reflexivity;
    try (destruct sa; reflexivity);
    try (destruct sb; reflexivity);
    try (destruct sa, sb; reflexivity).
  assert (Hm : Pos.compare_cont Eq mb ma = CompOpp (Pos.compare_cont Eq ma mb))
    by (symmetry; apply (Pos.compare_cont_antisym ma mb Eq)).
  destruct sa, sb; simpl; try reflexivity;
    rewrite (Z.compare_antisym ea eb);
    destruct (ea ?= eb); simpl; try reflexivity;
    rewrite Hm; destruct (Pos.compare_cont Eq ma mb); reflexivity.
Qed.

(** [a >= b] excludes [a < b]. *)
Lemma ge_not_lt (a b : spec_float) : Py.ge a b = true -> Py.lt a b = false.
Proof.
  unfold Py.ge, Py.lt, SFleb, SFltb.
  rewrite (SFcompare_swap a b).
  destruct (SFcompare a b) as [[ | | ]|]; simpl; congruence.
Qed.

(** [a < b] excludes [a >= b]. *)
Lemma lt_not_ge (a b : spec_float) : Py.lt a b = true -> Py.ge a b = false.
Proof.
  intros H. destruct (Py.ge a b) eqn:E; [|reflexivity].
  apply ge_not_lt in E. congruence.
Qed.

Example daily_investment_is_100 :
  DAILY_INVESTMENT = S754_finite false 7036874417766400 (-46)
  /\ 7036874417766400 = 100 * 2 ^ 46
  /\ valid_binary Py.prec Py.emax DAILY_INVESTMENT = true.
Proof. vm_compute. repeat split; reflexivity. Qed.

(** ** The branches of one cycle *)

#[local] Arguments Py.format_2f : simpl never.
#[local] Arguments Py.strftime : simpl never.
#[local] Arguments String.append : simpl never.

Ltac cycle_unfold :=
  unfold run_dca_strategy, place_order, get_account_info, check_market_hours,
    logger_info, logger_warning, logger_error, try_except, call, bind, ret,
    Py.float, trace, outcome.

Section CycleFacts.

Variable tc : TradingClient.

Lemma check_market_hours_closed clock :
  get_clock tc = Gives clock -> is_open clock = false ->
  check_market_hours tc =
    ([EvGetClock;
      EvLog INFO ("Market is closed. Next market open: "
                  ++ Py.strftime (next_open clock))], Ok false).
Proof. intros Hc Ho. cycle_unfold. rewrite Hc, Ho. reflexivity. Qed.

Lemma check_market_hours_open clock :
  get_clock tc = Gives clock -> is_open clock = true ->
  check_market_hours tc = ([EvGetClock], Ok true).
Proof. intros Hc Ho. cycle_unfold. rewrite Hc, Ho. reflexivity. Qed.

Lemma check_market_hours_fails e :
  get_clock tc = Fails e ->
  check_market_hours tc = ([EvGetClock], Raised (Py.Exception_ e)).
Proof. intros Hc. cycle_unfold. rewrite Hc. reflexivity. Qed.

Lemma get_account_info_gives account :
  get_account tc = Gives account ->
  get_account_info tc = (EvGetAccount :: account_log account, Ok (cash account)).
Proof. intros Ha. cycle_unfold. rewrite Ha. reflexivity. Qed.

Lemma get_account_info_fails e :
  get_account tc = Fails e ->
  get_account_info tc = ([EvGetAccount], Raised (Py.Exception_ e)).
Proof. intros Ha. cycle_unfold. rewrite Ha. reflexivity. Qed.

Lemma place_order_closed clock :
  get_clock tc = Gives clock -> is_open clock = false ->
  place_order tc =
    ([EvGetClock;
      EvLog INFO ("Market is closed. Next market open: "
                  ++ Py.strftime (next_open clock));
      EvLog INFO "Skipping order as market is closed."], Ok tt).
Proof.
  intros Hc Ho. unfold place_order.
  rewrite (check_market_hours_closed clock Hc Ho). reflexivity.
Qed.

Lemma place_order_clock_fails e :
  get_clock tc = Fails e ->
  place_order tc = ([EvGetClock], Raised (Py.Exception_ e)).
Proof.
  intros Hc. unfold place_order.
  rewrite (check_market_hours_fails e Hc). reflexivity.
Qed.

Lemma place_order_account_fails clock e :
  get_clock tc = Gives clock -> is_open clock = true ->
  get_account tc = Fails e ->
  place_order tc = ([EvGetClock; EvGetAccount], Raised (Py.Exception_ e)).
Proof.
  intros Hc Ho Ha. unfold place_order.
  rewrite (check_market_hours_open clock Hc Ho). cbn [bind negb].
  rewrite (get_account_info_fails e Ha). reflexivity.
Qed.

Lemma place_order_insufficient clock account :
  get_clock tc = Gives clock -> is_open clock = true ->
  get_account tc = Gives account ->
  Py.lt (cash account) DAILY_INVESTMENT = true ->
  place_order tc =
    ((EvGetClock :: EvGetAccount :: account_log account)
     ++ [EvLog WARNING ("Insufficient funds. Available cash: $"
                        ++ Py.format_2f (cash account))], Ok tt)%list.
Proof.
  intros Hc Ho Ha Hlt. unfold place_order.
  rewrite (check_market_hours_open clock Hc Ho). cbn [bind negb].
  rewrite (get_account_info_gives account Ha). cbn [bind].
  rewrite Hlt. reflexivity.
Qed.

Lemma place_order_submitted clock account order :
  get_clock tc = Gives clock -> is_open clock = true ->
  get_account tc = Gives account ->
  Py.lt (cash account) DAILY_INVESTMENT = false ->
  submit_order tc the_order = Gives order ->
  place_order tc =
    ((EvGetClock :: EvGetAccount :: account_log account)
     ++ [EvSubmitOrder the_order;
         EvLog INFO ("Order placed successfully - Order ID: " ++ order_id order);
         EvLog INFO "Buying $100.0 of SPY"], Ok tt)%list.
Proof.
  intros Hc Ho Ha Hlt Hs. unfold place_order.
  rewrite (check_market_hours_open clock Hc Ho). cbn [bind negb].
  rewrite (get_account_info_gives account Ha). cbn [bind].
  rewrite Hlt. unfold the_order in Hs. cycle_unfold.
  change (Py.float_of 100 0) with DAILY_INVESTMENT in Hs.
  unfold SYMBOL. rewrite Hs. reflexivity.
Qed.

Lemma place_order_rejected clock account e :
  get_clock tc = Gives clock -> is_open clock = true ->
  get_account tc = Gives account ->
  Py.lt (cash account) DAILY_INVESTMENT = false ->
  submit_order tc the_order = Fails e ->
  place_order tc =
    ((EvGetClock :: EvGetAccount :: account_log account)
     ++ [EvSubmitOrder the_order;
         EvLog ERROR ("Error placing order: " ++ Py.str e)], Ok tt)%list.
Proof.
  intros Hc Ho Ha Hlt Hs. unfold place_order.
  rewrite (check_market_hours_open clock Hc Ho). cbn [bind negb].
  rewrite (get_account_info_gives account Ha). cbn [bind].
  rewrite Hlt. unfold the_order in Hs. cycle_unfold.
  change (Py.float_of 100 0) with DAILY_INVESTMENT in Hs.
  unfold SYMBOL. rewrite Hs. reflexivity.
Qed.

End CycleFacts.

(** ** Reading the trace of a cycle *)

Lemma submissions_app (t1 t2 : list event) :
  submissions (t1 ++ t2)%list = (submissions t1 ++ submissions t2)%list.
Proof.
  induction t1 as [|e t1 IH]; [reflexivity|].
  destruct e; simpl; rewrite IH; reflexivity.
Qed.

Lemma logged_app (lvl : level) (t1 t2 : list event) :
  logged lvl (t1 ++ t2)%list = (logged lvl t1 ++ logged lvl t2)%list.
Proof.
  induction t1 as [|e t1 IH]; [reflexivity|].
  destruct e; simpl; try (rewrite IH; reflexivity).
  destruct lvl0, lvl; rewrite IH; reflexivity.
Qed.

Lemma append_empty_r (s : string) : s ++ "" = s.
Proof.
  induction s as [|a s IH]; [reflexivity|].
  change (String a s ++ "") with (String a (s ++ "")). rewrite IH. reflexivity.
Qed.

Section RunnerFacts.

Variable tc : TradingClient.

Lemma run_dca_strategy_completed t :
  place_order tc = (t, Ok tt) ->
  run_dca_strategy tc =
    ((EvLog INFO "Running DCA strategy..." :: t)
     ++ [EvLog INFO "DCA execution completed"], Ok tt)%list.
Proof.
  intros Hp. unfold run_dca_strategy. rewrite Hp. reflexivity.
Qed.

Lemma run_dca_strategy_caught t e :
  place_order tc = (t, Raised (Py.Exception_ e)) ->
  run_dca_strategy tc =
    ((EvLog INFO "Running DCA strategy..." :: t)
     ++ [EvLog ERROR ("Error executing DCA strategy: " ++ Py.str e)], Ok tt)%list.
Proof.
  intros Hp. unfold run_dca_strategy. rewrite Hp. reflexivity.
Qed.

(** Nothing in [place_order] exits the process: what it raises is an
    error of the clock query or of the account query. *)
Lemma place_order_outcome :
  outcome (place_order tc) = Ok tt
  \/ exists e, outcome (place_order tc) = Raised (Py.Exception_ e).
Proof.
  destruct (get_clock tc) as [clock|e] eqn:Hc.
  2:{ right. exists e. rewrite (place_order_clock_fails tc e Hc). reflexivity. }
  destruct (is_open clock) eqn:Ho.
  2:{ left. rewrite (place_order_closed tc clock Hc Ho). reflexivity. }
  destruct (get_account tc) as [account|e] eqn:Ha.
  2:{ right. exists e. rewrite (place_order_account_fails tc clock e Hc Ho Ha). reflexivity. }
  destruct (Py.lt (cash account) DAILY_INVESTMENT) eqn:Hlt.
  { left. rewrite (place_order_insufficient tc clock account Hc Ho Ha Hlt). reflexivity. }
  destruct (submit_order tc the_order) as [order|e] eqn:Hs.
  - left. rewrite (place_order_submitted tc clock account order Hc Ho Ha Hlt Hs). reflexivity.
  - left. rewrite (place_order_rejected tc clock account e Hc Ho Ha Hlt Hs). reflexivity.
Qed.

Lemma run_dca_strategy_returns : outcome (run_dca_strategy tc) = Ok tt.
Proof.
  destruct (place_order tc) as [t r] eqn:Hp.
  destruct place_order_outcome as [H|[e H]]; rewrite Hp in H; simpl in H; subst r.
  - rewrite (run_dca_strategy_completed t Hp). reflexivity.
  - rewrite (run_dca_strategy_caught t e Hp). reflexivity.
Qed.

(** The trace of a cycle is the start record, the trace of
    [place_order], and one closing record. *)
Lemma run_dca_strategy_trace :
  exists closing,
    trace (run_dca_strategy tc) =
      ((EvLog INFO "Running DCA strategy..." :: trace (place_order tc))
       ++ [EvLog closing.1 closing.2])%list.
Proof.
  destruct (place_order tc) as [t r] eqn:Hp.
  destruct place_order_outcome as [H|[e H]]; rewrite Hp in H; simpl in H; subst r.
  - exists (INFO, "DCA execution completed").
    rewrite (run_dca_strategy_completed t Hp). reflexivity.
  - exists (ERROR, "Error executing DCA strategy: " ++ Py.str e).
    rewrite (run_dca_strategy_caught t e Hp). reflexivity.
Qed.

Lemma run_dca_strategy_submissions :
  submissions (trace (run_dca_strategy tc)) = submissions (trace (place_order tc)).
Proof.
  destruct run_dca_strategy_trace as [closing ->].
  rewrite submissions_app. simpl. apply app_nil_r.
Qed.

(** An open market with enough cash: one submission, of [the_order]. *)
Lemma place_order_funded clock account :
  get_clock tc = Gives clock -> is_open clock = true ->
  get_account tc = Gives account ->
  Py.lt (cash account) DAILY_INVESTMENT = false ->
  submissions (trace (place_order tc)) = [the_order].
Proof.
  intros Hc Ho Ha Hlt.
  destruct (submit_order tc the_order) as [order|e] eqn:Hs.
  - rewrite (place_order_submitted tc clock account order Hc Ho Ha Hlt Hs).
    reflexivity.
  - rewrite (place_order_rejected tc clock account e Hc Ho Ha Hlt Hs).
    reflexivity.
Qed.

End RunnerFacts.

(** ** The claims about one cycle *)

(** C1. In a cycle where the market clock reports open and the cash
    balance is at least the configured daily amount, [place_order]
    submits exactly one order, with notional 100.0, symbol "SPY", side
    buy and time in force day; so does the cycle as a whole. *)
Theorem place_order_submits_one_order (tc : TradingClient) clock account :
  get_clock tc = Gives clock -> is_open clock = true ->
  get_account tc = Gives account ->
  Py.ge (cash account) DAILY_INVESTMENT = true ->
  submissions (trace (place_order tc)) =
    [ {| symbol := "SPY"; notional := Py.float_of 100 0;
         side := BUY; time_in_force := DAY |} ]
  /\ submissions (trace (run_dca_strategy tc)) =
    [ {| symbol := "SPY"; notional := Py.float_of 100 0;
         side := BUY; time_in_force := DAY |} ].
Proof.
  intros Hc Ho Ha Hge. apply ge_not_lt in Hge.
  rewrite run_dca_strategy_submissions.
  split; exact (place_order_funded tc clock account Hc Ho Ha Hge).
Qed.

Lemma place_order_submits_one_order_witness :
  Py.ge (Py.float_of 500 0) DAILY_INVESTMENT = true
  /\ submissions (trace (place_order tc_funded)) =
       [ {| symbol := "SPY"; notional := S754_finite false 7036874417766400 (-46);
            side := BUY; time_in_force := DAY |} ].
Proof.
  split; [reflexivity|].
  apply (place_order_submits_one_order tc_funded clock_open account_500);
    reflexivity.
Defined.

(** C2. In a cycle where the market clock reports [is_open = false], no
    order is submitted, and the market-hours gate logs the next-open time
    of the clock. *)
Theorem closed_market_submits_nothing (tc : TradingClient) clock :
  get_clock tc = Gives clock -> is_open clock = false ->
  submissions (trace (place_order tc)) = []
  /\ submissions (trace (run_dca_strategy tc)) = []
  /\ check_market_hours tc =
       ([EvGetClock;
         EvLog INFO ("Market is closed. Next market open: "
                     ++ Py.strftime (next_open clock))], Ok false)
  /\ In (EvLog INFO ("Market is closed. Next market open: "
                     ++ Py.strftime (next_open clock)))
        (trace (run_dca_strategy tc)).
Proof.
  intros Hc Ho.
  pose proof (place_order_closed tc clock Hc Ho) as Hp.
  rewrite run_dca_strategy_submissions.
  rewrite (run_dca_strategy_completed tc _ Hp), Hp.
  repeat split.
  - exact (check_market_hours_closed tc clock Hc Ho).
  - simpl. auto.
Qed.

Lemma closed_market_submits_nothing_witness :
  submissions (trace (run_dca_strategy tc_closed)) = []
  /\ In (EvLog INFO "Market is closed. Next market open: 2024-01-02 09:30:00")
        (trace (run_dca_strategy tc_closed)).
Proof.
  destruct (closed_market_submits_nothing tc_closed clock_closed eq_refl eq_refl)
    as (_ & Hs & _ & Hl).
  split; [exact Hs | exact Hl].
Defined.

(** C3. In a cycle where the market is open and the cash balance is
    strictly below the configured daily amount, no order is submitted and
    one warning is logged, whose message contains the cash balance with
    two decimals. *)
Theorem insufficient_funds_submits_nothing (tc : TradingClient) clock account :
  get_clock tc = Gives clock -> is_open clock = true ->
  get_account tc = Gives account ->
  Py.lt (cash account) DAILY_INVESTMENT = true ->
  submissions (trace (place_order tc)) = []
  /\ submissions (trace (run_dca_strategy tc)) = []
  /\ logged WARNING (trace (run_dca_strategy tc)) =
       ["Insufficient funds. Available cash: $" ++ Py.format_2f (cash account)]
  /\ contains (Py.format_2f (cash account))
       ("Insufficient funds. Available cash: $" ++ Py.format_2f (cash account)).
Proof.
  intros Hc Ho Ha Hlt.
  pose proof (place_order_insufficient tc clock account Hc Ho Ha Hlt) as Hp.
  rewrite run_dca_strategy_submissions.
  rewrite (run_dca_strategy_completed tc _ Hp), Hp.
  repeat split.
  exists "Insufficient funds. Available cash: $", "".
  rewrite append_empty_r. reflexivity.
Qed.

Lemma insufficient_funds_submits_nothing_witness :
  Py.lt (Py.float_of 50 0) DAILY_INVESTMENT = true
  /\ submissions (trace (run_dca_strategy tc_poor)) = []
  /\ logged WARNING (trace (run_dca_strategy tc_poor)) =
       ["Insufficient funds. Available cash: $50.00"].
Proof.
  split; [reflexivity|].
  destruct (insufficient_funds_submits_nothing tc_poor clock_open account_50
              eq_refl eq_refl eq_refl eq_refl) as (_ & Hs & Hw & _).
  split; [exact Hs | exact Hw].
Defined.

(** C9. When the cash balance is exactly the configured daily amount
    (100.0), the insufficient-funds guard does not fire, the comparison
    being strict, and the order is submitted. *)
Theorem exact_cash_submits (tc : TradingClient) clock account :
  get_clock tc = Gives clock -> is_open clock = true ->
  get_account tc = Gives account ->
  cash account = Py.float_of 100 0 ->
  Py.lt (cash account) DAILY_INVESTMENT = false
  /\ logged WARNING (trace (place_order tc)) = []
  /\ submissions (trace (place_order tc)) =
       [ {| symbol := "SPY"; notional := Py.float_of 100 0;
            side := BUY; time_in_force := DAY |} ].
Proof.
  intros Hc Ho Ha Hcash.
  assert (Hlt : Py.lt (cash account) DAILY_INVESTMENT = false)
    by (rewrite Hcash; reflexivity).
  split; [exact Hlt|]. split.
  - destruct (submit_order tc the_order) as [order|e] eqn:Hs.
    + rewrite (place_order_submitted tc clock account order Hc Ho Ha Hlt Hs).
      reflexivity.
    + rewrite (place_order_rejected tc clock account e Hc Ho Ha Hlt Hs).
      reflexivity.
  - exact (place_order_funded tc clock account Hc Ho Ha Hlt).
Qed.

Lemma exact_cash_submits_witness :
  cash account_100 = S754_finite false 7036874417766400 (-46)
  /\ submissions (trace (place_order tc_exact)) = [the_order].
Proof.
  split; [reflexivity|].
  apply (exact_cash_submits tc_exact clock_open account_100); reflexivity.
Defined.

(** The account query of a cycle, when there is one, directly follows a
    clock query that reported an open market. *)
Lemma account_query_follows_open_clock (tc : TradingClient) :
  In EvGetAccount (trace (place_order tc)) ->
  exists clock t,
    get_clock tc = Gives clock /\ is_open clock = true
    /\ check_market_hours tc = ([EvGetClock], Ok true)
    /\ trace (place_order tc) = EvGetClock :: EvGetAccount :: t.
Proof.
  intros Hin.
  destruct (get_clock tc) as [clock|e] eqn:Hc.
  2:{ rewrite (place_order_clock_fails tc e Hc) in Hin. simpl in Hin.
      destruct Hin as [H|[]]; discriminate H. }
  destruct (is_open clock) eqn:Ho.
  2:{ rewrite (place_order_closed tc clock Hc Ho) in Hin. simpl in Hin.
      destruct Hin as [H|[H|[H|[]]]]; discriminate H. }
  exists clock.
  pose proof (check_market_hours_open tc clock Hc Ho) as Hm.
  destruct (get_account tc) as [account|e] eqn:Ha.
  2:{ exists []. rewrite (place_order_account_fails tc clock e Hc Ho Ha). auto. }
  destruct (Py.lt (cash account) DAILY_INVESTMENT) eqn:Hlt.
  { eexists. rewrite (place_order_insufficient tc clock account Hc Ho Ha Hlt).
    repeat split; assumption. }
  destruct (submit_order tc the_order) as [order|e] eqn:Hs.
  - eexists. rewrite (place_order_submitted tc clock account order Hc Ho Ha Hlt Hs).
    repeat split; assumption.
  - eexists. rewrite (place_order_rejected tc clock account e Hc Ho Ha Hlt Hs).
    repeat split; assumption.
Qed.

(** C10. In a cycle where the market clock reports closed, the account
    query is never performed and nothing about the account is logged;
    whenever a cycle performs the account query, the market-open check
    has returned true just before it. *)
Theorem account_query_only_when_open (tc : TradingClient) :
  (forall clock, get_clock tc = Gives clock -> is_open clock = false ->
     ~ In EvGetAccount (trace (run_dca_strategy tc))
     /\ logged INFO (trace (run_dca_strategy tc)) =
          ["Running DCA strategy...";
           "Market is closed. Next market open: " ++ Py.strftime (next_open clock);
           "Skipping order as market is closed.";
           "DCA execution completed"])
  /\ (In EvGetAccount (trace (run_dca_strategy tc)) ->
      exists clock t,
        get_clock tc = Gives clock /\ is_open clock = true
        /\ check_market_hours tc = ([EvGetClock], Ok true)
        /\ trace (place_order tc) = EvGetClock :: EvGetAccount :: t).
Proof.
  split.
  - intros clock Hc Ho.
    pose proof (place_order_closed tc clock Hc Ho) as Hp.
    rewrite (run_dca_strategy_completed tc _ Hp). split; [|reflexivity].
    simpl. intros [H|[H|[H|[H|[H|[]]]]]]; discriminate H.
  - intros Hin. apply account_query_follows_open_clock.
    destruct (run_dca_strategy_trace tc) as [closing Ht].
    rewrite Ht in Hin. simpl in Hin.
    destruct Hin as [H|Hin]; [discriminate H|].
    apply in_app_or in Hin. destruct Hin as [Hin|[H|[]]];
      [exact Hin | discriminate H].
Qed.

Lemma account_query_only_when_open_witness :
  ~ In EvGetAccount (trace (run_dca_strategy tc_closed))
  /\ exists t, trace (place_order tc_funded) = EvGetClock :: EvGetAccount :: t.
Proof.
  destruct (account_query_only_when_open tc_closed) as [Hclosed _].
  destruct (account_query_only_when_open tc_funded) as [_ Hopen].
  split.
  - exact (proj1 (Hclosed clock_closed eq_refl eq_refl)).
  - destruct Hopen as (clock & t & _ & _ & _ & Ht).
    + vm_compute. auto.
    + exists t. exact Ht.
Defined.

(** ** The scheduler loop *)

Lemma io_eta {A} (m : io A) : m = (trace m, outcome m).
Proof. destruct m; reflexivity. Qed.

Lemma run_dca_strategy_eta (tc : TradingClient) :
  run_dca_strategy tc = (trace (run_dca_strategy tc), Ok tt).
Proof.
  rewrite (io_eta (run_dca_strategy tc)) at 1.
  rewrite run_dca_strategy_returns. reflexivity.
Qed.

Section LoopFacts.

Variable world : nat -> TradingClient.
Variable should_run : nat -> Job -> bool.

(** The jobs of a poll all return: no run of the strategy raises. *)
Lemma run_jobs_returns tc (js : list Job) : outcome (run_jobs tc js) = Ok tt.
Proof.
  induction js as [|j js IH]; [reflexivity|].
  cbn [run_jobs]. destruct (job_func j). cbn [run_callable].
  rewrite (run_dca_strategy_eta tc). unfold bind.
  rewrite (io_eta (run_jobs tc js)), IH. reflexivity.
Qed.

Lemma run_pending_returns (jobs : list Job) i :
  outcome (run_pending world should_run jobs i) = Ok tt.
Proof.
  unfold run_pending, bind.
  rewrite (io_eta (run_jobs _ _)), run_jobs_returns. reflexivity.
Qed.

Lemma run_pending_daily i :
  run_pending world should_run [daily_job] i =
    ((EvRunPending ::
      (if should_run i daily_job then trace (run_dca_strategy (world (S i))) else [])),
     Ok tt).
Proof.
  unfold run_pending. cbn [List.filter].
  destruct (should_run i daily_job).
  - cbn [run_jobs job_func daily_job run_callable].
    rewrite (run_dca_strategy_eta (world (S i))). unfold bind, ret.
    cbn [fst trace]. rewrite app_nil_r. reflexivity.
  - reflexivity.
Qed.

(** One iteration of the loop is never the last. *)
Lemma poll_loop_step (jobs : list Job) i fuel :
  poll_loop world should_run jobs i (S fuel) =
    (((trace (run_pending world should_run jobs i) ++ [EvSleep 60])
      ++ (poll_loop world should_run jobs (S i) fuel).1)%list,
     (poll_loop world should_run jobs (S i) fuel).2).
Proof.
  cbn [poll_loop]. unfold bind, sleep.
  rewrite (io_eta (run_pending world should_run jobs i)), run_pending_returns.
  destruct (poll_loop world should_run jobs (S i) fuel). reflexivity.
Qed.

Lemma poll_loop_running (jobs : list Job) fuel :
  forall i, (poll_loop world should_run jobs i fuel).2 = Running.
Proof.
  induction fuel as [|fuel IH]; intros i; [reflexivity|].
  rewrite poll_loop_step. apply IH.
Qed.

Lemma poll_loop_daily fuel :
  forall i,
    poll_loop world should_run [daily_job] i fuel =
      (flat_map (poll_events world should_run) (seq i fuel), Running).
Proof.
  induction fuel as [|fuel IH]; intros i; [reflexivity|].
  rewrite poll_loop_step, IH, run_pending_daily.
  cbn [seq flat_map fst snd trace]. unfold poll_events.
  rewrite <- !app_assoc. reflexivity.
Qed.

Lemma schedule_dca_daily fuel :
  schedule_dca world should_run [] fuel =
    (([EvSchedule daily_job;
       EvLog INFO "DCA strategy scheduled to run daily at 9:35 AM"]
      ++ trace (run_dca_strategy (world 0))
      ++ flat_map (poll_events world should_run) (seq 0 fuel))%list,
     Running).
Proof.
  unfold schedule_dca, every_day_at_do, logger_info, bind, ret.
  rewrite (run_dca_strategy_eta (world 0)).
  cbn [app]. change [{| interval := 1; unit_ := days; at_time := "09:35";
                        job_func := run_dca_strategy_fn |}] with [daily_job].
  rewrite poll_loop_daily. rewrite app_nil_r.
  cbn [fst snd trace]. reflexivity.
Qed.

End LoopFacts.

(** ** Counting the runs of the strategy *)

Lemma runs_app (t1 t2 : list event) : runs (t1 ++ t2)%list = (runs t1 + runs t2)%nat.
Proof. unfold runs. rewrite List.filter_app, length_app. reflexivity. Qed.

(** No record of [place_order] is the start record of a run. *)
Lemma runs_place_order (tc : TradingClient) : runs (trace (place_order tc)) = 0%nat.
Proof.
  destruct (get_clock tc) as [clock|e] eqn:Hc.
  2:{ rewrite (place_order_clock_fails tc e Hc). reflexivity. }
  destruct (is_open clock) eqn:Ho.
  2:{ rewrite (place_order_closed tc clock Hc Ho). reflexivity. }
  destruct (get_account tc) as [account|e] eqn:Ha.
  2:{ rewrite (place_order_account_fails tc clock e Hc Ho Ha). reflexivity. }
  destruct (Py.lt (cash account) DAILY_INVESTMENT) eqn:Hlt.
  { rewrite (place_order_insufficient tc clock account Hc Ho Ha Hlt). reflexivity. }
  destruct (submit_order tc the_order) as [order|e] eqn:Hs.
  - rewrite (place_order_submitted tc clock account order Hc Ho Ha Hlt Hs). reflexivity.
  - rewrite (place_order_rejected tc clock account e Hc Ho Ha Hlt Hs). reflexivity.
Qed.

(** A cycle holds exactly one start record. *)
Lemma runs_cycle (tc : TradingClient) : runs (trace (run_dca_strategy tc)) = 1%nat.
Proof.
  pose proof (runs_place_order tc) as Hp.
  destruct (place_order tc) as [t r] eqn:E.
  destruct (place_order_outcome tc) as [H|[e H]]; rewrite E in H; simpl in H; subst r.
  - rewrite (run_dca_strategy_completed tc t E).
    cbn [trace fst] in *. rewrite runs_app.
    change (runs (EvLog INFO "Running DCA strategy..." :: t)) with (S (runs t)).
    rewrite Hp. reflexivity.
  - rewrite (run_dca_strategy_caught tc t e E).
    cbn [trace fst] in *. rewrite runs_app.
    change (runs (EvLog INFO "Running DCA strategy..." :: t)) with (S (runs t)).
    rewrite Hp. reflexivity.
Qed.

Lemma runs_polls world should_run n :
  forall i,
    runs (flat_map (poll_events world should_run) (seq i n)) =
      length (List.filter (fun k => should_run k daily_job) (seq i n)).
Proof.
  induction n as [|n IH]; intros i; [reflexivity|].
  cbn [seq flat_map List.filter]. rewrite runs_app, IH.
  unfold poll_events. rewrite !runs_app.
  destruct (should_run i daily_job).
  - rewrite runs_cycle. reflexivity.
  - reflexivity.
Qed.

(** ** The claims about errors and about the scheduler *)

(** C4. When the order submission raises an error, [place_order] catches
    it, logs it at error severity as its last action, and returns
    normally; the cycle returns normally, the loop iteration that ran it
    goes on to its sleep, and the remaining iterations follow as they
    would have anyway: the process is still running. *)
Theorem submission_error_is_swallowed (tc : TradingClient) clock account e :
  get_clock tc = Gives clock -> is_open clock = true ->
  get_account tc = Gives account ->
  Py.ge (cash account) DAILY_INVESTMENT = true ->
  submit_order tc the_order = Fails e ->
  outcome (place_order tc) = Ok tt
  /\ logged ERROR (trace (place_order tc)) = ["Error placing order: " ++ Py.str e]
  /\ (exists t, trace (place_order tc) =
        (t ++ [EvSubmitOrder the_order;
               EvLog ERROR ("Error placing order: " ++ Py.str e)])%list)
  /\ outcome (run_dca_strategy tc) = Ok tt
  /\ forall world should_run i fuel,
       world (S i) = tc -> should_run i daily_job = true ->
       poll_loop world should_run [daily_job] i (S fuel) =
         (([EvRunPending] ++ trace (run_dca_strategy tc) ++ [EvSleep 60])
          ++ flat_map (poll_events world should_run) (seq (S i) fuel),
          Running)%list.
Proof.
  intros Hc Ho Ha Hge Hs. apply ge_not_lt in Hge.
  pose proof (place_order_rejected tc clock account e Hc Ho Ha Hge Hs) as Hp.
  split; [rewrite Hp; reflexivity|].
  split; [rewrite Hp; reflexivity|].
  split; [eexists; rewrite Hp; reflexivity|].
  split; [apply run_dca_strategy_returns|].
  intros world should_run i fuel Hw Hdue.
  rewrite poll_loop_daily. cbn [seq flat_map].
  unfold poll_events at 1. rewrite Hdue, Hw. reflexivity.
Qed.

Lemma submission_error_is_swallowed_witness :
  outcome (place_order tc_rejected) = Ok tt
  /\ logged ERROR (trace (place_order tc_rejected)) =
       ["Error placing order: insufficient buying power"]
  /\ (poll_loop (fun _ => tc_rejected) (fun _ _ => true) [daily_job] 0 2).2 = Running.
Proof.
  destruct (submission_error_is_swallowed tc_rejected clock_open account_500
              (Py.mkException "insufficient buying power")
              eq_refl eq_refl eq_refl eq_refl eq_refl)
    as (Hr & Hl & _ & _ & Hloop).
  split; [exact Hr|]. split; [exact Hl|].
  rewrite (Hloop (fun _ => tc_rejected) (fun _ _ => true) 0%nat 1%nat eq_refl eq_refl).
  reflexivity.
Defined.

(** C5. Whatever error a cycle meets, the strategy runner returns
    normally: an error raised by [place_order], in particular one of the
    market-clock query or of the account query, is caught and logged at
    error severity, and the scheduler loop is running after any number of
    polls. *)
Theorem cycle_errors_are_caught (tc : TradingClient) :
  outcome (run_dca_strategy tc) = Ok tt
  /\ (forall t e, place_order tc = (t, Raised (Py.Exception_ e)) ->
        run_dca_strategy tc =
          ((EvLog INFO "Running DCA strategy..." :: t)
           ++ [EvLog ERROR ("Error executing DCA strategy: " ++ Py.str e)], Ok tt)%list)
  /\ (forall e, get_clock tc = Fails e ->
        run_dca_strategy tc =
          ([EvLog INFO "Running DCA strategy..."; EvGetClock;
            EvLog ERROR ("Error executing DCA strategy: " ++ Py.str e)], Ok tt))
  /\ (forall clock e,
        get_clock tc = Gives clock -> is_open clock = true ->
        get_account tc = Fails e ->
        run_dca_strategy tc =
          ([EvLog INFO "Running DCA strategy..."; EvGetClock; EvGetAccount;
            EvLog ERROR ("Error executing DCA strategy: " ++ Py.str e)], Ok tt))
  /\ (forall world should_run fuel,
        (schedule_dca world should_run [] fuel).2 = Running).
Proof.
  split; [apply run_dca_strategy_returns|].
  split; [intros t e Hp; apply (run_dca_strategy_caught tc t e Hp)|].
  split.
  { intros e Hc.
    rewrite (run_dca_strategy_caught tc _ e (place_order_clock_fails tc e Hc)).
    reflexivity. }
  split.
  { intros clock e Hc Ho Ha.
    rewrite (run_dca_strategy_caught tc _ e
               (place_order_account_fails tc clock e Hc Ho Ha)).
    reflexivity. }
  intros world should_run fuel.
  rewrite schedule_dca_daily. reflexivity.
Qed.

Lemma cycle_errors_are_caught_witness :
  run_dca_strategy tc_clock_down =
    ([EvLog INFO "Running DCA strategy..."; EvGetClock;
      EvLog ERROR "Error executing DCA strategy: connection refused"], Ok tt)
  /\ run_dca_strategy tc_account_down =
    ([EvLog INFO "Running DCA strategy..."; EvGetClock; EvGetAccount;
      EvLog ERROR "Error executing DCA strategy: forbidden"], Ok tt)
  /\ (schedule_dca (fun _ => tc_clock_down) (fun _ _ => true) [] 3).2 = Running.
Proof.
  destruct (cycle_errors_are_caught tc_clock_down) as (_ & _ & Hclock & _ & Hloop).
  destruct (cycle_errors_are_caught tc_account_down) as (_ & _ & _ & Haccount & _).
  split; [exact (Hclock (Py.mkException "connection refused") eq_refl)|].
  split; [exact (Haccount clock_open (Py.mkException "forbidden") eq_refl eq_refl eq_refl)|].
  exact (Hloop (fun _ => tc_clock_down) (fun _ _ => true) 3%nat).
Defined.

(** C8. [schedule_dca] registers one trigger, daily at 09:35; it runs the
    strategy once before the loop, whatever the trigger says; afterwards
    every iteration checks the pending triggers, runs the strategy only
    if the trigger is due, and sleeps 60 seconds; the loop has no last
    iteration. *)
Theorem schedule_dca_trace (world : nat -> TradingClient)
    (should_run : nat -> Job -> bool) (fuel : nat) :
  schedule_dca world should_run [] fuel =
    (([EvSchedule {| interval := 1; unit_ := days; at_time := "09:35";
                     job_func := run_dca_strategy_fn |};
       EvLog INFO "DCA strategy scheduled to run daily at 9:35 AM"]
      ++ trace (run_dca_strategy (world 0%nat))
      ++ flat_map (fun i =>
           [EvRunPending]
           ++ (if should_run i daily_job
               then trace (run_dca_strategy (world (S i))) else [])
           ++ [EvSleep 60]) (seq 0%nat fuel))%list,
     Running)
  /\ runs (trace (run_dca_strategy (world 0%nat))) = 1%nat
  /\ runs (schedule_dca world should_run [] fuel).1
     = (1 + due_polls should_run fuel)%nat.
Proof.
  split; [apply schedule_dca_daily|].
  split; [apply runs_cycle|].
  rewrite schedule_dca_daily. cbn [fst].
  rewrite !runs_app, runs_cycle, runs_polls. reflexivity.
Qed.

(** ** The claims about start-up *)

(** C6. If [ALPACA_API_KEY] or [ALPACA_API_SECRET] is missing from the
    environment, the script logs one error and exits with status 1; no
    brokerage client is constructed and nothing else happens. *)
Theorem missing_credentials_exit_1 (env : gmap string string)
    (world : nat -> TradingClient) (should_run : nat -> Job -> bool) (fuel : nat) :
  env !! "ALPACA_API_KEY" = None \/ env !! "ALPACA_API_SECRET" = None ->
  main env world should_run fuel =
    ([EvLog ERROR "API keys not found. Please check your .env file."],
     Terminated (Py.SystemExit 1))
  /\ exit_status (main env world should_run fuel).2 = Some 1
  /\ List.filter is_new_client (main env world should_run fuel).1 = [].
Proof.
  intros Hmiss.
  assert (Hmain : main env world should_run fuel =
            ([EvLog ERROR "API keys not found. Please check your .env file."],
             Terminated (Py.SystemExit 1))).
  { unfold main, init, api_key, api_secret, getenv.
    destruct Hmiss as [H|H]; rewrite H.
    - reflexivity.
    - destruct (Py.truthy (env !! "ALPACA_API_KEY")); reflexivity. }
  rewrite Hmain. repeat split.
Qed.

Lemma missing_credentials_exit_1_witness :
  env_no_secret !! "ALPACA_API_SECRET" = None
  /\ exit_status (main env_no_secret (fun _ => tc_funded) (fun _ _ => true) 5).2 = Some 1.
Proof.
  assert (H : env_no_secret !! "ALPACA_API_SECRET" = None) by (vm_compute; reflexivity).
  split; [exact H|].
  exact (proj1 (proj2 (missing_credentials_exit_1 env_no_secret (fun _ => tc_funded)
                         (fun _ _ => true) 5 (or_intror H)))).
Defined.

(** Lower-casing a character gives one of the letters of "true" exactly
    when the character is that letter in either case. *)
Lemma lower_ascii_ci (a c : ascii) :
  In c ["t"; "r"; "u"; "e"]%char ->
  Ascii.eqb (Py.lower_ascii a) c = ascii_ci_eqb a c.
Proof.
  intros [<-|[<-|[<-|[<-|[]]]]];
    destruct a as [[] [] [] [] [] [] [] []]; vm_compute; reflexivity.
Qed.

Lemma lower_is_true (v : string) :
  String.eqb (Py.lower v) "true" = ci_eqb v "true".
Proof.
  destruct v as [|a1 [|a2 [|a3 [|a4 [|a5 v]]]]];
    cbn [Py.lower String.eqb ci_eqb];
    rewrite ?lower_ascii_ci by (simpl; tauto);
    repeat match goal with
      | |- context [ascii_ci_eqb ?a ?c] => destruct (ascii_ci_eqb a c)
      end;
    reflexivity.
Qed.

(** C7. The trading mode is paper exactly when [IS_PAPER] is unset or is
    set to a string that matches "true" whatever the case of its letters;
    any other value gives live mode.  The mode is the one the client is
    constructed with. *)
Theorem is_paper_iff (env : gmap string string) :
  (is_paper env = true <->
     env !! "IS_PAPER" = None
     \/ exists v, env !! "IS_PAPER" = Some v /\ ci_eqb v "true" = true)
  /\ (forall v, env !! "IS_PAPER" = Some v -> ci_eqb v "true" = false ->
        is_paper env = false)
  /\ (forall k s p, In (EvNewClient k s p) (trace (init env)) -> p = is_paper env).
Proof.
  assert (Hval : is_paper env =
            match env !! "IS_PAPER" with
            | Some v => ci_eqb v "true"
            | None => true
            end).
  { unfold is_paper, getenv_default.
    destruct (env !! "IS_PAPER") as [v|]; [apply lower_is_true | reflexivity]. }
  split; [|split].
  - rewrite Hval. destruct (env !! "IS_PAPER") as [v|].
    + split.
      * intros H. right. exists v. auto.
      * intros [H|(w & Hw & Hci)]; [discriminate H|]. congruence.
    + split; auto.
  - intros v Hv Hci. rewrite Hval, Hv. exact Hci.
  - intros k s p. unfold init.
    destruct (negb (Py.truthy (api_key env)) || negb (Py.truthy (api_secret env))).
    + simpl. intros [H|[]]. discriminate H.
    + destruct (api_key env), (api_secret env); intros Hin; simpl in Hin;
        intuition congruence.
Qed.

Lemma is_paper_iff_witness :
  is_paper env_default_mode = true
  /\ is_paper env_mixed_case = true
  /\ is_paper env_live = false.
Proof.
  split; [|split].
  - apply (proj1 (is_paper_iff env_default_mode)). left. vm_compute. reflexivity.
  - apply (proj1 (is_paper_iff env_mixed_case)). right. exists "TrUe".
    vm_compute. split; reflexivity.
  - apply (proj1 (proj2 (is_paper_iff env_live)) "yes"); vm_compute; reflexivity.
Defined.

(* ===================================================================== *)
(** * Further properties of the program *)
(* ===================================================================== *)

(** The six ways a cycle can go, each with the trace of [place_order]
    ([Hp]) and of [run_dca_strategy] ([Hr]) written out. *)
Ltac cycle_cases tc :=
  let clock := fresh "clock" in
  let account := fresh "account" in
  let order := fresh "order" in
  let e := fresh "e" in
  destruct (get_clock tc) as [clock|e] eqn:Hc;
  [ destruct (is_open clock) eqn:Ho;
    [ destruct (get_account tc) as [account|e] eqn:Ha;
      [ destruct (Py.lt (cash account) DAILY_INVESTMENT) eqn:Hlt;
        [ pose proof (place_order_insufficient tc clock account Hc Ho Ha Hlt) as Hp;
          pose proof (run_dca_strategy_completed tc _ Hp) as Hr
        | destruct (submit_order tc the_order) as [order|e] eqn:Hs;
          [ pose proof (place_order_submitted tc clock account order Hc Ho Ha Hlt Hs) as Hp;
            pose proof (run_dca_strategy_completed tc _ Hp) as Hr
          | pose proof (place_order_rejected tc clock account e Hc Ho Ha Hlt Hs) as Hp;
            pose proof (run_dca_strategy_completed tc _ Hp) as Hr ] ]
      | pose proof (place_order_account_fails tc clock e Hc Ho Ha) as Hp;
        pose proof (run_dca_strategy_caught tc _ e Hp) as Hr ]
    | pose proof (place_order_closed tc clock Hc Ho) as Hp;
      pose proof (run_dca_strategy_completed tc _ Hp) as Hr ]
  | pose proof (place_order_clock_fails tc e Hc) as Hp;
    pose proof (run_dca_strategy_caught tc _ e Hp) as Hr ].

(** ** One cycle, for every client *)

(** X1. A cycle submits the order exactly when the clock query gives an
    open market, the account query gives an account and the balance is
    not below the daily amount; otherwise it submits nothing.  So a cycle
    never submits twice (a rejected order is not retried) and never
    submits any other order. *)
Theorem cycle_submits_iff_gates_pass (tc : TradingClient) :
  submissions (trace (run_dca_strategy tc)) =
    if passes_gates tc then
      [ {| symbol := "SPY"; notional := Py.float_of 100 0;
           side := BUY; time_in_force := DAY |} ]
    else [].
Proof.
  unfold passes_gates. cycle_cases tc; rewrite Hr; reflexivity.
Qed.

(** X2. A balance that is not a number is not below the daily amount:
    with an open market the guard does not fire, no warning is logged and
    the order is submitted. *)
Theorem nan_cash_passes_guard (tc : TradingClient) clock account :
  get_clock tc = Gives clock -> is_open clock = true ->
  get_account tc = Gives account ->
  cash account = S754_nan ->
  logged WARNING (trace (run_dca_strategy tc)) = []
  /\ submissions (trace (run_dca_strategy tc)) = [the_order]
  /\ In (EvLog INFO "Cash Balance: $nan") (trace (run_dca_strategy tc)).
Proof.
  intros Hc' Ho' Ha' Hnan.
  assert (Hlt' : Py.lt (cash account) DAILY_INVESTMENT = false)
    by (rewrite Hnan; reflexivity).
  assert (Hlog : EvLog INFO ("Cash Balance: $" ++ Py.format_2f (cash account))
                 = EvLog INFO "Cash Balance: $nan") by (rewrite Hnan; reflexivity).
  destruct (submit_order tc the_order) as [order|e] eqn:Hs'.
  - rewrite (run_dca_strategy_completed tc _
               (place_order_submitted tc clock account order Hc' Ho' Ha' Hlt' Hs')).
    repeat split. rewrite <- Hlog. cbn. tauto.
  - rewrite (run_dca_strategy_completed tc _
               (place_order_rejected tc clock account e Hc' Ho' Ha' Hlt' Hs')).
    repeat split. rewrite <- Hlog. cbn. tauto.
Qed.

Lemma nan_cash_passes_guard_witness :
  cash account_nan = S754_nan
  /\ submissions (trace (run_dca_strategy tc_nan)) = [the_order].
Proof.
  split; [reflexivity|].
  exact (proj1 (proj2 (nan_cash_passes_guard tc_nan clock_open account_nan
                         eq_refl eq_refl eq_refl eq_refl))).
Defined.

(** X3. What a cycle asks of the client: the clock exactly once, as its
    first action after the start record; the account at most once; and
    it submits at most once. *)
Theorem cycle_call_budget (tc : TradingClient) :
  length (List.filter is_get_clock (trace (run_dca_strategy tc))) = 1%nat
  /\ (exists t, trace (run_dca_strategy tc) =
                  EvLog INFO "Running DCA strategy..." :: EvGetClock :: t)
  /\ (length (List.filter is_get_account (trace (run_dca_strategy tc))) <= 1)%nat
  /\ (length (submissions (trace (run_dca_strategy tc))) <= 1)%nat.
Proof.
  cycle_cases tc; rewrite Hr; cbn;
    (split; [reflexivity|]); (split; [eexists; reflexivity|]); split; lia.
Qed.

(** X4. The error records of a cycle: none when every call it makes
    succeeds, and otherwise exactly one, for the first call that fails,
    logged by [run_dca_strategy] for the clock and account queries and by
    [place_order] for the submission. *)
Theorem cycle_error_log (tc : TradingClient) :
  logged ERROR (trace (run_dca_strategy tc)) =
    match cycle_error tc with
    | Some msg => [msg]
    | None => []
    end.
Proof.
  unfold cycle_error. cycle_cases tc; rewrite Hr; reflexivity.
Qed.

(** X5. The warning of a cycle: the insufficient-funds record, logged
    exactly when the market is open, the account query succeeds and the
    balance is below the daily amount. *)
Theorem cycle_warning_iff (tc : TradingClient) :
  (forall msg, In msg (logged WARNING (trace (run_dca_strategy tc))) <->
     exists clock account,
       get_clock tc = Gives clock /\ is_open clock = true
       /\ get_account tc = Gives account
       /\ Py.lt (cash account) DAILY_INVESTMENT = true
       /\ msg = "Insufficient funds. Available cash: $" ++ Py.format_2f (cash account))
  /\ (length (logged WARNING (trace (run_dca_strategy tc))) <= 1)%nat.
Proof.
  cycle_cases tc; rewrite Hr; (split; [|cbn; lia]); intros msg;
    cbn -[DAILY_INVESTMENT]; split; intros H.
  all: try (destruct H as (c & a & H1 & H2 & H3 & H4 & H5);
            try congruence; left; congruence).
  all: try (destruct H as [<-|[]]; exists clock, account; auto).
  all: destruct H.
Qed.

Lemma cycle_warning_iff_witness :
  In "Insufficient funds. Available cash: $50.00"
     (logged WARNING (trace (run_dca_strategy tc_poor)))
  /\ logged WARNING (trace (run_dca_strategy tc_funded)) = [].
Proof.
  split.
  - apply (proj1 (cycle_warning_iff tc_poor)).
    exists clock_open, account_50. repeat split.
  - destruct (logged WARNING (trace (run_dca_strategy tc_funded))) as [|msg l] eqn:E;
      [reflexivity|].
    destruct (proj1 (proj1 (cycle_warning_iff tc_funded) msg)) as (c & a & _ & _ & Ha & Hlt & _).
    + rewrite E. left. reflexivity.
    + injection Ha as <-. discriminate Hlt.
Defined.

(** X6. A cycle closes with "DCA execution completed" exactly when
    neither the clock query nor the account query it makes fails: also
    when the market is closed, when funds are insufficient and when the
    order is rejected. *)
Theorem cycle_completed_iff (tc : TradingClient) :
  List.last (trace (run_dca_strategy tc)) EvGetClock
    = EvLog INFO "DCA execution completed"
  <-> (exists clock, get_clock tc = Gives clock
         /\ (is_open clock = true -> exists account, get_account tc = Gives account)).
Proof.
  cycle_cases tc; rewrite Hr; cbn; split; intros H.
  all: try reflexivity.
  all: try discriminate H.
  all: try (exists clock; split; [reflexivity|]; intros Ho';
            first [congruence | eexists; reflexivity]).
  all: destruct H as (c & H1 & H2); try discriminate H1.
  injection H1 as <-. destruct (H2 Ho) as (a & Ha'). discriminate Ha'.
Qed.

Lemma cycle_completed_iff_witness :
  List.last (trace (run_dca_strategy tc_rejected)) EvGetClock
    = EvLog INFO "DCA execution completed"
  /\ List.last (trace (run_dca_strategy tc_account_down)) EvGetClock
    <> EvLog INFO "DCA execution completed".
Proof.
  split.
  - apply (proj2 (cycle_completed_iff tc_rejected)).
    exists clock_open. split; [reflexivity|]. intros _. exists account_500. reflexivity.
  - intros H. apply (proj1 (cycle_completed_iff tc_account_down)) in H.
    destruct H as (c & Hc & Ha). injection Hc as <-.
    destruct (Ha eq_refl) as (a & Hfail). discriminate Hfail.
Defined.

(** X7. A purchase is announced only for an accepted order: the record
    "Buying $100.0 of SPY" is in the log of a cycle exactly when the gates
    are passed and the broker accepts the order, and then once. *)
Theorem purchase_announced_iff_accepted (tc : TradingClient) :
  List.filter is_purchase_record (trace (run_dca_strategy tc)) =
    if passes_gates tc && accepts_order tc
    then [EvLog INFO "Buying $100.0 of SPY"] else [].
Proof.
  unfold passes_gates, accepts_order.
  cycle_cases tc; rewrite Hr; try reflexivity.
  all: destruct (submit_order tc the_order); reflexivity.
Qed.

(** ** Start-up, for every environment *)

(** A cycle performs none of the actions of start-up or of the loop: it
    constructs no client, checks no trigger and does not sleep. *)
Lemma cycle_stays_in_its_lane (tc : TradingClient) :
  List.filter is_new_client (trace (run_dca_strategy tc)) = []
  /\ List.filter is_run_pending (trace (run_dca_strategy tc)) = []
  /\ slept (trace (run_dca_strategy tc)) = 0.
Proof. cycle_cases tc; rewrite Hr; repeat split. Qed.

Lemma slept_app (t1 t2 : list event) : slept (t1 ++ t2)%list = slept t1 + slept t2.
Proof.
  induction t1 as [|e t1 IH]; [reflexivity|].
  destruct e; cbn [app slept]; rewrite IH; lia.
Qed.

Lemma polls_build_no_client world should_run n :
  forall i,
    List.filter is_new_client (flat_map (poll_events world should_run) (seq i n)) = [].
Proof.
  induction n as [|n IH]; intros i; [reflexivity|].
  cbn [seq flat_map]. rewrite List.filter_app, IH, app_nil_r.
  unfold poll_events. rewrite !List.filter_app.
  destruct (should_run i daily_job); [|reflexivity].
  rewrite (proj1 (cycle_stays_in_its_lane (world (S i)))). reflexivity.
Qed.

Lemma truthy_spec (v : option string) :
  Py.truthy v = false <-> v = None \/ v = Some "".
Proof.
  destruct v as [[|a s]|]; simpl; split; intros H; auto; try discriminate H.
  destruct H as [H|H]; discriminate H.
Qed.

(** X8. The script ends at start-up, with status 1, exactly when a
    credential is unset or set to the empty string; in every other
    environment it is still running after any number of polls. *)
Theorem main_exits_iff_no_credentials (env : gmap string string)
    (world : nat -> TradingClient) (should_run : nat -> Job -> bool) (fuel : nat) :
  ((main env world should_run fuel).2 = Terminated (Py.SystemExit 1) <->
     env !! "ALPACA_API_KEY" = None \/ env !! "ALPACA_API_KEY" = Some ""
     \/ env !! "ALPACA_API_SECRET" = None \/ env !! "ALPACA_API_SECRET" = Some "")
  /\ ((main env world should_run fuel).2 = Running <->
        exists k s, env !! "ALPACA_API_KEY" = Some k /\ k <> ""
                    /\ env !! "ALPACA_API_SECRET" = Some s /\ s <> "").
Proof.
  pose proof (truthy_spec (env !! "ALPACA_API_KEY")) as Hk.
  pose proof (truthy_spec (env !! "ALPACA_API_SECRET")) as Hs.
  unfold main, init, api_key, api_secret, getenv.
  destruct (schedule_dca world should_run [] fuel) as [t st] eqn:Hsched.
  assert (Hst : st = Running).
  { pose proof (schedule_dca_daily world should_run fuel) as Hd.
    rewrite Hsched in Hd. congruence. }
  subst st.
  destruct (env !! "ALPACA_API_KEY") as [[|a k]|];
    destruct (env !! "ALPACA_API_SECRET") as [[|b s]|]; cbn; split; split;
    intros H; try discriminate H; try reflexivity; auto 6.
  all: try (destruct H as (k' & s' & H1 & H2 & H3 & H4); congruence).
  - destruct H as [H|[H|[H|H]]]; discriminate H.
  - eexists _, _. repeat split; discriminate.
Qed.

Lemma main_exits_iff_no_credentials_witness :
  env_empty_key !! "ALPACA_API_KEY" = Some ""
  /\ (main env_empty_key (fun _ => tc_funded) (fun _ _ => true) 3).2
     = Terminated (Py.SystemExit 1).
Proof.
  assert (Hk : env_empty_key !! "ALPACA_API_KEY" = Some "") by (vm_compute; reflexivity).
  split; [exact Hk|].
  apply (proj2 (proj1 (main_exits_iff_no_credentials env_empty_key
                         (fun _ => tc_funded) (fun _ _ => true) 3))).
  right. left. exact Hk.
Defined.

(** X9. With both credentials set and not empty, the script constructs
    the client with the key, the secret and the mode of the environment
    as its first action, logs the start, and goes on to [schedule_dca];
    the client is constructed once in the whole run. *)
Theorem main_with_credentials (env : gmap string string) (k s : string)
    (world : nat -> TradingClient) (should_run : nat -> Job -> bool) (fuel : nat) :
  env !! "ALPACA_API_KEY" = Some k -> k <> "" ->
  env !! "ALPACA_API_SECRET" = Some s -> s <> "" ->
  main env world should_run fuel =
    (([EvNewClient k s (is_paper env);
       EvLog INFO "Starting DCA strategy for S&P 500 ($100 daily investment)"]
      ++ (schedule_dca world should_run [] fuel).1)%list, Running)
  /\ List.filter is_new_client (main env world should_run fuel).1 =
       [EvNewClient k s (is_paper env)].
Proof.
  intros Hk Hk' Hs Hs'.
  assert (Hmain : main env world should_run fuel =
    (([EvNewClient k s (is_paper env);
       EvLog INFO "Starting DCA strategy for S&P 500 ($100 daily investment)"]
      ++ (schedule_dca world should_run [] fuel).1)%list, Running)).
  { unfold main, init, api_key, api_secret, getenv. rewrite Hk, Hs.
    rewrite (schedule_dca_daily world should_run fuel).
    destruct k as [|a k]; [congruence|]. destruct s as [|b s]; [congruence|].
    reflexivity. }
  split; [exact Hmain|].
  rewrite Hmain, schedule_dca_daily. cbn [fst app List.filter is_new_client].
  rewrite !List.filter_app, polls_build_no_client.
  rewrite (proj1 (cycle_stays_in_its_lane (world 0%nat))). reflexivity.
Qed.

Lemma main_with_credentials_witness :
  env_mixed_case !! "ALPACA_API_KEY" = Some "key"
  /\ List.filter is_new_client
       (main env_mixed_case (fun _ => tc_funded) (fun _ _ => true) 2).1 =
       [EvNewClient "key" "secret" true].
Proof.
  assert (Hk : env_mixed_case !! "ALPACA_API_KEY" = Some "key") by (vm_compute; reflexivity).
  assert (Hs : env_mixed_case !! "ALPACA_API_SECRET" = Some "secret")
    by (vm_compute; reflexivity).
  split; [exact Hk|].
  refine (eq_trans (proj2 (main_with_credentials env_mixed_case "key" "secret"
            (fun _ => tc_funded) (fun _ _ => true) 2 Hk _ Hs _)) _);
    [discriminate | discriminate | vm_compute; reflexivity].
Defined.

(** ** The scheduler, for every number of polls *)

(** X10. Polling longer only adds to what has happened: the trace after
    [n] polls is the beginning of the trace after [n + k] polls. *)
Theorem schedule_dca_grows (world : nat -> TradingClient)
    (should_run : nat -> Job -> bool) (n k : nat) :
  (schedule_dca world should_run [] (n + k)).1 =
    ((schedule_dca world should_run [] n).1
     ++ flat_map (fun i =>
          [EvRunPending]
          ++ (if should_run i daily_job
              then trace (run_dca_strategy (world (S i))) else [])
          ++ [EvSleep 60]) (seq n k))%list.
Proof.
  rewrite !schedule_dca_daily. cbn [fst].
  rewrite seq_app, flat_map_app. cbn [Nat.add].
  rewrite <- !app_assoc. reflexivity.
Qed.

Lemma polls_count world should_run n :
  forall i,
    length (List.filter is_run_pending
              (flat_map (poll_events world should_run) (seq i n))) = n
    /\ slept (flat_map (poll_events world should_run) (seq i n)) = 60 * Z.of_nat n.
Proof.
  induction n as [|n IH]; intros i; [split; reflexivity|].
  destruct (IH (S i)) as [IHp IHs].
  cbn [seq flat_map]. rewrite List.filter_app, length_app, slept_app, IHp, IHs.
  unfold poll_events. rewrite !List.filter_app, !length_app, !slept_app.
  destruct (cycle_stays_in_its_lane (world (S i))) as (_ & Hp & Hs).
  destruct (should_run i daily_job).
  - rewrite Hp, Hs. cbn. split; lia.
  - cbn. split; lia.
Qed.

(** X11. After [fuel] iterations the loop has checked the pending
    triggers [fuel] times and slept 60 seconds after each check, whatever
    the runs of the strategy did; nothing else in the program sleeps. *)
Theorem schedule_dca_polls_and_sleeps (world : nat -> TradingClient)
    (should_run : nat -> Job -> bool) (fuel : nat) :
  length (List.filter is_run_pending (schedule_dca world should_run [] fuel).1) = fuel
  /\ slept (schedule_dca world should_run [] fuel).1 = 60 * Z.of_nat fuel.
Proof.
  rewrite schedule_dca_daily. cbn [fst].
  destruct (polls_count world should_run fuel 0%nat) as [Hp Hs].
  destruct (cycle_stays_in_its_lane (world 0%nat)) as (_ & Hp0 & Hs0).
  rewrite !List.filter_app, !length_app, !slept_app, Hp, Hs, Hp0, Hs0.
  cbn. split; lia.
Qed.

Lemma cycle_submission_count (tc : TradingClient) :
  length (submissions (trace (run_dca_strategy tc))) =
    if passes_gates tc then 1%nat else 0%nat.
Proof.
  unfold passes_gates. cycle_cases tc; rewrite Hr; reflexivity.
Qed.

Lemma polls_submission_count world should_run n :
  forall i,
    length (submissions (flat_map (poll_events world should_run) (seq i n))) =
      length (List.filter
                (fun k => should_run k daily_job && passes_gates (world (S k)))
                (seq i n)).
Proof.
  induction n as [|n IH]; intros i; [reflexivity|].
  cbn [seq flat_map List.filter]. rewrite submissions_app, length_app, IH.
  unfold poll_events. rewrite !submissions_app, !length_app.
  destruct (should_run i daily_job); cbn [andb].
  - rewrite cycle_submission_count.
    destruct (passes_gates (world (S i))); reflexivity.
  - reflexivity.
Qed.

(** X12. The orders of a whole run: one for the start-up run if the
    gates are passed then, and one for each poll at which the trigger is
    due and the gates are passed.  Nothing else limits them: the program
    keeps no record of the orders it has placed. *)
Theorem schedule_dca_order_count (world : nat -> TradingClient)
    (should_run : nat -> Job -> bool) (fuel : nat) :
  length (submissions (schedule_dca world should_run [] fuel).1) =
    ((if passes_gates (world 0%nat) then 1 else 0)
     + length (List.filter
                 (fun i => should_run i daily_job && passes_gates (world (S i)))
                 (seq 0 fuel)))%nat.
Proof.
  rewrite schedule_dca_daily. cbn [fst].
  rewrite !submissions_app, !length_app.
  rewrite cycle_submission_count, polls_submission_count. reflexivity.
Qed.

(** X13. No order is held back because one was placed already: when the
    trigger is due at the first poll and the gates are passed both at
    start-up and at that poll, two orders are submitted before the first
    sleep is over. *)
Theorem startup_and_trigger_both_submit (world : nat -> TradingClient)
    (should_run : nat -> Job -> bool) :
  passes_gates (world 0%nat) = true ->
  passes_gates (world 1%nat) = true ->
  should_run 0%nat daily_job = true ->
  submissions (schedule_dca world should_run [] 1).1 = [the_order; the_order].
Proof.
  intros H0 H1 Hdue.
  rewrite schedule_dca_daily. cbn [fst seq flat_map]. unfold poll_events.
  rewrite Hdue, !submissions_app.
  assert (Hone : forall tc, passes_gates tc = true ->
            submissions (trace (run_dca_strategy tc)) = [the_order]).
  { intros tc. unfold passes_gates. cycle_cases tc; rewrite Hr; cbn;
      intros H; try discriminate H; reflexivity. }
  rewrite (Hone _ H0), (Hone _ H1). reflexivity.
Qed.

Lemma startup_and_trigger_both_submit_witness :
  passes_gates tc_funded = true
  /\ submissions (schedule_dca (fun _ => tc_funded) (fun _ _ => true) [] 1).1
     = [the_order; the_order].
Proof.
  split; [reflexivity|].
  apply (startup_and_trigger_both_submit (fun _ => tc_funded) (fun _ _ => true));
    reflexivity.
Defined.
